(** * github-profile-stats: cache store, reconcilers, transport and discovery

    A shallow embedding of [cache_utils.py], of the classes [Queries] and
    [Stats] of [github_stats.py] and of the flag parsing of
    [generate_images.py], with the properties of the design document
    stated and settled against it.

    Conventions.
    - A decoded JSON value is a [json]; Python's [None] is [JNull].  Numbers
      are integers: the cache documents written by the program hold no
      floating-point number.
    - A Python [dict] with string keys is a [gmap string _]; a [set] of
      strings is a [gset string].
    - [json.dump] followed by [json.load] is the identity on [json]; the
      backing file is therefore modelled by the value it parses to.
    - Effects (the cache file, the clock, the requests sent, the memoised
      attributes of the [Stats] object) live in an explicit [world] threaded
      by a small state-and-exception monad. *)

From Stdlib Require Import ZArith String Ascii QArith Qcanon.
From stdpp Require Import gmap strings list fin_maps.

#[local] Set Warnings "-register-all,-clear-no-such-hyp".
#[local] Open Scope string_scope.
#[local] Open Scope list_scope.
#[local] Open Scope Z_scope.

(** ** JSON values and the Python view of them *)

Inductive json : Type :=
  | JNull
  | JBool (b : bool)
  | JInt (z : Z)
  | JStr (s : string)
  | JList (l : list json)
  | JObj (m : gmap string json).

(** [bool(v)]: the truth value Python gives a decoded JSON value. *)
Definition truthy (v : json) : bool :=
  match v with
  | JNull => false
  | JBool b => b
  | JInt z => negb (z =? 0)
  | JStr s => negb (String.eqb s "")
  | JList l => match l with [] => false | _ => true end
  | JObj m => negb (bool_decide (dom m = ∅))
  end.

(** [v is None] *)
Definition is_none (v : json) : bool :=
  match v with JNull => true | _ => false end.

(** [v == n] for an integer [n]: [True == 1] and [False == 0] hold in
    Python, every other non-integer differs from every integer. *)
Definition py_eq_int (v : json) (n : Z) : bool :=
  match v with
  | JInt z => z =? n
  | JBool b => (if b then 1 else 0) =? n
  | _ => false
  end.

(** [d.get(k)] on a dict: the value, [None] when the key is missing. *)
Definition dict_get (m : gmap string json) (k : string) : json :=
  default JNull (m !! k).

(** [new == old] where [new] is a list of [str] and [old] any value. *)
Fixpoint strs_eq (new : list string) (old : list json) : bool :=
  match new, old with
  | [], [] => true
  | s :: new', JStr t :: old' => String.eqb s t && strs_eq new' old'
  | _, _ => false
  end.

Definition json_eq_strs (new : list string) (old : json) : bool :=
  match old with
  | JList l => strs_eq new l
  | _ => false
  end.

(** The elements of a list of strings, [None] if [v] is anything else. *)
Fixpoint strs_of (l : list json) : option (list string) :=
  match l with
  | [] => Some []
  | JStr s :: l' => cons s <$> strs_of l'
  | _ => None
  end.

(** ** Exceptions, outcomes and the world *)

Inductive exn : Type :=
  | KeyError | TypeError | AttributeError | ValueError | ZeroDivisionError
  | AssertionError
  | TransportError.      (* whatever [aiohttp] or [requests] raise *)

Inductive outcome (A : Type) : Type :=
  | Ret (a : A)
  | Raise (e : exn)
  | Diverge.
Arguments Ret {A} a.
Arguments Raise {A} e.
Arguments Diverge {A}.

(** The backing file [.cache-runtime/stats.json]. *)
Inductive file : Type :=
  | NoFile                 (* [os.path.exists] is false *)
  | Unparsable             (* [json.load] raises [JSONDecodeError] *)
  | Parsed (j : json).     (* [json.load] returns [j] *)

(** One entry of [Stats._languages]. [prop] is the exact rational whose
    nearest double the code stores. *)
Record lang_entry : Type := LangEntry {
  l_size : Z;
  l_occurrences : Z;
  l_color : option string;
  l_prop : option Qc;
}.

Record world : Type := World {
  cache_file : file;
  clock : nat;                      (* instants elapsed; a request takes one *)
  rest_sent : list string;          (* paths given to [query_rest], oldest first *)
  overview_sent : list (option string * option string);
                                    (* (owned_cursor, contrib_cursor) of each
                                       [repos_overview] query, oldest first *)
  _name : option string;
  _stargazers : option Z;
  _forks : option Z;
  _languages : option (gmap string lang_entry);
  _repos : option (gset string);
  _lines_changed : option (json * json);
}.

Definition M (A : Type) : Type := world → outcome A * world.

Definition ret {A} (a : A) : M A := λ w, (Ret a, w).
Definition raise {A} (e : exn) : M A := λ w, (Raise e, w).
Definition bind {A B} (c : M A) (k : A → M B) : M B :=
  λ w, match c w with
       | (Ret a, w') => k a w'
       | (Raise e, w') => (Raise e, w')
       | (Diverge, w') => (Diverge, w')
       end.

Notation "'let*' x ':=' c 'in' k" := (bind c (λ x, k))
  (at level 10, x name, c at level 200, k at level 200, only parsing).
Notation "c ;;; k" := (bind c (λ _, k))
  (at level 100, k at level 200, right associativity, only parsing).

Definition get_world : M world := λ w, (Ret w, w).
Definition modify (f : world → world) : M unit := λ w, (Ret tt, f w).

(** Lift a partial read: [None] raises [e]. *)
Definition or_raise {A} (e : exn) (o : option A) : M A :=
  match o with Some a => ret a | None => raise e end.

Definition set_cache_file (f : file) (w : world) : world :=
  World f (clock w) (rest_sent w) (overview_sent w)
        (_name w) (_stargazers w) (_forks w) (_languages w) (_repos w)
        (_lines_changed w).

Definition set_lines_changed_attr (v : json * json) (w : world) : world :=
  World (cache_file w) (clock w) (rest_sent w) (overview_sent w)
        (_name w) (_stargazers w) (_forks w) (_languages w) (_repos w)
        (Some v).

(** ** cache_utils.py *)

Module Cache.

Definition CACHE_VERSION : Z := 1.

Section WithClock.
(** [datetime.utcnow().isoformat()] at a given instant (library code). *)
Variable isoformat : nat → string.

Definition _utc_now_iso : M string :=
  let* w := get_world in ret (isoformat (clock w) ++ "Z")%string.

Definition load_cache : M (option (gmap string json)) :=
  let* w := get_world in
  match cache_file w with
  | NoFile => ret None
  | Unparsable => ret None
  | Parsed (JObj data) =>
      if negb (py_eq_int (dict_get data "version") CACHE_VERSION)
      then ret None
      else ret (Some data)
  | Parsed _ => raise AttributeError      (* [data.get] on a non-dict *)
  end.

(** [{"version": ..., "updated_at": ..., **data}]: the keys of [data]
    win over the two written before them. *)
Definition save_cache (data : gmap string json) : M unit :=
  let* now := _utc_now_iso in
  let payload : gmap string json :=
    data ∪ <["version" := JInt CACHE_VERSION]> {["updated_at" := JStr now]} in
  modify (set_cache_file (Parsed (JObj payload))).

Definition get_lines_changed (cache : option (gmap string json)) : json :=
  match cache with
  | None => JNull
  | Some c => if negb (truthy (JObj c)) then JNull else dict_get c "lines_changed"
  end.

Definition lines_changed_entry (additions deletions last_commit_date : json) : json :=
  JObj (<["additions" := additions]>
        (<["deletions" := deletions]>
         {["last_commit_date" := last_commit_date]})).

Definition set_lines_changed (cache : option (gmap string json))
    (additions deletions last_commit_date : json) : gmap string json :=
  let cache := match cache with None => ∅ | Some c => c end in
  <["lines_changed" := lines_changed_entry additions deletions last_commit_date]> cache.

Definition get_recent_commits (cache : option (gmap string json)) : json :=
  match cache with
  | None => JNull
  | Some c => if negb (truthy (JObj c)) then JNull else dict_get c "recent_commits"
  end.

Definition recent_commits_entry (fingerprints : list string) (now : string) : json :=
  JObj (<["fingerprints" := JList (JStr <$> fingerprints)]>
        {["last_checked" := JStr now]}).

Definition set_recent_commits (cache : option (gmap string json))
    (fingerprints : list string) : M (gmap string json) :=
  let cache := match cache with None => ∅ | Some c => c end in
  let* now := _utc_now_iso in
  ret (<["recent_commits" := recent_commits_entry fingerprints now]> cache).

End WithClock.
End Cache.

(** ** Python string operations

    A character is a code point below 256. *)

Module Py.

(** [c.isspace()] for a code point below 256. *)
Definition isspace (c : ascii) : bool :=
  let n := nat_of_ascii c in
  ((9 <=? n) && (n <=? 13) || (28 <=? n) && (n <=? 32)
   || (n =? 133) || (n =? 160))%nat.

(** [c.lower()] for a code point below 256. *)
Definition lower_char (c : ascii) : ascii :=
  let n := nat_of_ascii c in
  if ((65 <=? n) && (n <=? 90)
      || (192 <=? n) && (n <=? 222) && negb (n =? 215))%nat
  then ascii_of_nat (n + 32) else c.

Fixpoint lower (s : string) : string :=
  match s with
  | EmptyString => EmptyString
  | String c s' => String (lower_char c) (lower s')
  end.

Fixpoint lstrip (s : string) : string :=
  match s with
  | EmptyString => EmptyString
  | String c s' => if isspace c then lstrip s' else s
  end.

Fixpoint rstrip (s : string) : string :=
  match s with
  | EmptyString => EmptyString
  | String c s' =>
      match rstrip s' with
      | EmptyString => if isspace c then EmptyString else String c EmptyString
      | t => String c t
      end
  end.

Definition strip (s : string) : string := rstrip (lstrip s).

(** [s.split(sep)]: the pieces between the occurrences of [sep]. *)
Fixpoint split (sep : ascii) (s : string) : list string :=
  match s with
  | EmptyString => [EmptyString]
  | String c s' =>
      if Ascii.eqb c sep then EmptyString :: split sep s'
      else match split sep s' with
           | p :: ps => String c p :: ps
           | [] => [String c EmptyString]
           end
  end.

(** [a, b = s.rsplit(sep, 1)]: split at the last [sep]; [None] when there
    is none (the unpacking raises [ValueError]). *)
Fixpoint rsplit1 (sep : ascii) (s : string) : option (string * string) :=
  match s with
  | EmptyString => None
  | String c s' =>
      match rsplit1 sep s' with
      | Some (a, b) => Some (String c a, b)
      | None => if Ascii.eqb c sep then Some (EmptyString, s') else None
      end
  end.

(** [s[:n]] *)
Definition prefix (n : nat) (s : string) : string := String.substring 0 n s.

(** [s.startswith("/")] and [s[1:]] *)
Definition startswith_slash (s : string) : bool :=
  match s with String "/" _ => true | _ => false end.
Definition tail (s : string) : string :=
  match s with String _ s' => s' | EmptyString => EmptyString end.

End Py.

(** ** generate_images.py: the "ignore forked contributions" flag

    [raw] is [os.getenv("EXCLUDE_FORKED_REPOS")]. *)

Module Main.

Definition ignore_forked_repos (raw : option string) : bool :=
  match raw with
  | None => false                                 (* [not not None] *)
  | Some r =>
      negb (String.eqb r "")
      && negb (String.eqb (Py.lower (Py.strip r)) "false")
  end.

End Main.

(** ** github_stats.py: class Queries *)

Module Queries.

(** What [r.json()] does: raise, or return the decoded body. *)
Inductive decoded : Type :=
  | JsonError
  | Body (j : json).

(** What one HTTP request does: raise, or answer with a status. *)
Inductive reply : Type :=
  | Fails
  | Replies (status : Z) (body : decoded).

(** The observable actions of the client, oldest first. *)
Inductive io : Type :=
  | AsyncPost (query : string)
  | SyncPost (query : string)
  | AsyncGet (url : string) (params : list (string * string))
  | SyncGet (url : string) (params : list (string * string))
  | Sleep (seconds : Z).

(** [Queries.query].  [primary] is what [session.post] and [.json()] do,
    [fallback] what [requests.post] and [.json()] do if they are reached. *)
Definition query (primary fallback : reply) (generated_query : string)
  : outcome json * list io :=
  let fall_back :=
    match fallback with
    | Replies _ (Body result) =>
        if negb (is_none result) then Ret result else Ret (JObj ∅)
    | Replies _ JsonError => Raise TransportError
    | Fails => Raise TransportError
    end in
  match primary with
  | Replies _ (Body result) =>
      (if negb (is_none result) then Ret result else Ret (JObj ∅),
       [AsyncPost generated_query])
  | Replies _ JsonError =>
      (fall_back, [AsyncPost generated_query; SyncPost generated_query])
  | Fails =>
      (fall_back, [AsyncPost generated_query; SyncPost generated_query])
  end.

Definition url_of (path : string) : string :=
  ("https://api.github.com/" ++ path)%string.

(** The body of [for _ in range(60)], from iteration [i] with [n] left.
    [primary i] and [fallback i] are what the two transports do in
    iteration [i]. *)
Fixpoint query_rest_from (primary fallback : nat → reply) (n i : nat)
    (path : string) (params : list (string * string))
  : outcome json * list io :=
  match n with
  | O => (Ret (JObj ∅), [])
  | S n' =>
      let path := if Py.startswith_slash path then Py.tail path else path in
      let continue (acts : list io) :=
        let '(r, t) := query_rest_from primary fallback n' (S i) path params in
        (r, acts ++ t) in
      let except (acts : list io) :=
        let acts := acts ++ [SyncGet (url_of path) params] in
        match fallback i with
        | Fails => (Raise TransportError, acts)
        | Replies status body =>
            if status =? 202 then continue (acts ++ [Sleep 2])
            else if status =? 200 then
              match body with
              | Body result => (Ret result, acts)
              | JsonError => (Raise TransportError, acts)
              end
            else continue acts
        end in
      match primary i with
      | Fails => except [AsyncGet (url_of path) params]
      | Replies status body =>
          if status =? 202
          then continue [AsyncGet (url_of path) params; Sleep 2]
          else match body with
               | Body result =>
                   if negb (is_none result)
                   then (Ret result, [AsyncGet (url_of path) params])
                   else continue [AsyncGet (url_of path) params]
               | JsonError => except [AsyncGet (url_of path) params]
               end
      end
  end.

Definition query_rest (primary fallback : nat → reply)
    (path : string) (params : option (list (string * string)))
  : outcome json * list io :=
  query_rest_from primary fallback 60 0 path
    (match params with None => [] | Some p => p end).

End Queries.

(** ** github_stats.py: class Stats *)

Module Stats.

(** The arguments of [Stats.__init__]. *)
Record config : Type := Config {
  username : string;
  _ignore_forked_repos : bool;
  _exclude_repos : gset string;
  _exclude_langs : gset string;
}.

(** *** Shapes of the replies

    A field read with [.get(key, default)] is an [option]: [None] is the
    missing key.  A field read with [[key]] is required. *)

(** [repos_overview]: [languages.edges[i]] *)
Record lang_node : Type := LangNode {
  ln_name : option string;
  ln_color : option string;
}.
Record lang_edge : Type := LangEdge {
  le_size : option Z;
  le_node : option lang_node;
}.
(** [repos_overview]: [nodes[i]] *)
Record repo_node : Type := RepoNode {
  nameWithOwner : string;
  stargazers_totalCount : option Z;
  forkCount : option Z;
  languages_edges : option (list lang_edge);
}.
Record page_info : Type := PageInfo {
  hasNextPage : option bool;
  endCursor : option (option string);   (* [Some None] is a null cursor *)
}.
Record connection : Type := Connection {
  pageInfo : option page_info;
  nodes : option (list (option repo_node));   (* a [None] element is null *)
}.
(** [repos_overview]: [data.viewer] *)
Record viewer : Type := Viewer {
  v_name : option string;
  v_login : option string;
  repositories : option connection;
  repositoriesContributedTo : option connection;
}.

(** [users/{user}/events]: one event *)
Record event : Type := Event {
  ev_type : option string;
  ev_repo_name : string;                   (* [event["repo"]["name"]] *)
  ev_head : option string;                 (* [event["payload"].get("head")] *)
  ev_commits : option (list string);       (* the [sha] of each of
                                              [event["payload"].get("commits")] *)
}.

(** [repos/{owner}/{repo}/commits/{sha}]: a reply that is truthy and has
    the key ["commit"].  [cd_stats] is [None] when [data.get("stats")] is
    falsy, else the two counters it may hold. *)
Record commit_data : Type := CommitData {
  cd_message : string;
  cd_author_name : string;
  cd_author_date : string;
  cd_stats : option (option Z * option Z);
}.

(** [repos/{repo}/stats/contributors]: one element of the list *)
Record week : Type := Week { wk_a : option Z; wk_d : option Z }.
Record author_obj : Type := AuthorObj {
  ao_login : option string;                (* [.get("author", {}).get("login")] *)
  ao_weeks : option (list week);
}.

(** What the remote service and the library clock answer.  A reply may
    depend on the instant of the request, so that any sequence of replies
    within a run is covered, also one that follows the cursors sent (they
    are recorded in [overview_sent]).  The replies are those
    [Queries.query] and [Queries.query_rest] return; an exception raised
    by them passes through every function below unchanged, none has a
    handler.  The reply for the events is a list of events; the empty dict
    that [query_rest] gives after 60 replies of 202 iterates as the empty
    list. *)
Record remote : Type := Remote {
  isoformat : nat → string;                (* [datetime.utcnow().isoformat()] *)
  fromisoformat : string → option Z;       (* [datetime.fromisoformat(
                                              s.replace("Z", "+00:00"))] as an
                                              instant; [None] when it raises *)
  overview_at : nat → option viewer;       (* [None]: no [data.viewer] *)
  events_at : nat → string → list event;
  commit_at : nat → string → option commit_data;
  contributors_at : nat → string → option (list author_obj);
                                           (* [None]: not a list *)
}.

(** One element of the result of [fetch_commit_details]. *)
Record commit_info : Type := CommitInfo {
  ci_repo : string;
  ci_message : string;
  ci_author : string;
  ci_date : string;
  ci_sha : string;
}.

(** The accumulators [get_stats] updates while it pages. *)
Record tally : Type := Tally {
  t_stargazers : Z;
  t_forks : Z;
  t_languages : gmap string lang_entry;
  t_repos : gset string;
}.

Definition set_name (n : option string) (w : world) : world :=
  World (cache_file w) (clock w) (rest_sent w) (overview_sent w)
        n (_stargazers w) (_forks w) (_languages w) (_repos w)
        (_lines_changed w).

Definition set_tally (t : tally) (w : world) : world :=
  World (cache_file w) (clock w) (rest_sent w) (overview_sent w)
        (_name w) (Some (t_stargazers t)) (Some (t_forks t))
        (Some (t_languages t)) (Some (t_repos t)) (_lines_changed w).

Definition set_languages (l : gmap string lang_entry) (w : world) : world :=
  World (cache_file w) (clock w) (rest_sent w) (overview_sent w)
        (_name w) (_stargazers w) (_forks w) (Some l) (_repos w)
        (_lines_changed w).

(** [for x in l: ...] updating local variables [s]. *)
Fixpoint for_acc {A S} (l : list A) (body : A → S → M S) (s : S) : M S :=
  match l with
  | [] => ret s
  | x :: l' => let* s' := body x s in for_acc l' body s'
  end.

(** [v[k]] on a decoded value. *)
Definition subscript (v : json) (k : string) : M json :=
  match v with
  | JObj m => or_raise KeyError (m !! k)
  | _ => raise TypeError
  end.

(** [v + n] for an [int] [n] ([bool] is a subclass of [int]). *)
Definition py_add_int (v : json) (n : Z) : M json :=
  match v with
  | JInt z => ret (JInt (z + n))
  | JBool b => ret (JInt ((if b then 1 else 0) + n))
  | _ => raise TypeError
  end.

Definition Zc (z : Z) : Qc := Q2Qc (inject_Z z).

Section WithRemote.
Variable cfg : config.
Variable R : remote.

(** A request to the REST client: the reply of the service at this
    instant, the path recorded, one instant elapsed. *)
Definition query_rest {A} (reply_at : nat → string → A) (path : string) : M A :=
  λ w, (Ret (reply_at (clock w) path),
        World (cache_file w) (S (clock w)) (rest_sent w ++ [path])
              (overview_sent w) (_name w) (_stargazers w) (_forks w)
              (_languages w) (_repos w) (_lines_changed w)).

(** [queries.query(Queries.repos_overview(owned_cursor, contrib_cursor))] *)
Definition query_overview (owned_cursor contrib_cursor : option string)
  : M (option viewer) :=
  λ w, (Ret (overview_at R (clock w)),
        World (cache_file w) (S (clock w)) (rest_sent w)
              (overview_sent w ++ [(owned_cursor, contrib_cursor)])
              (_name w) (_stargazers w) (_forks w)
              (_languages w) (_repos w) (_lines_changed w)).

(** *** get_stats *)

Definition exclude_langs_lower : gset string :=
  set_map Py.lower (_exclude_langs cfg).

(** The body of [for lang in repo.get("languages", {}).get("edges", [])]. *)
Definition add_language (languages : gmap string lang_entry) (lang : lang_edge)
  : gmap string lang_entry :=
  let name := default "Other" (le_node lang ≫= ln_name) in
  if bool_decide (Py.lower name ∈ exclude_langs_lower) then languages
  else match languages !! name with
       | Some e =>
           <[name := LangEntry (l_size e + default 0 (le_size lang))
                               (l_occurrences e + 1) (l_color e) (l_prop e)]>
             languages
       | None =>
           <[name := LangEntry (default 0 (le_size lang)) 1
                               (le_node lang ≫= ln_color) None]> languages
       end.

(** The body of [for repo in repos]. *)
Definition add_repo (t : tally) (repo : option repo_node) : tally :=
  match repo with
  | None => t
  | Some repo =>
      let name := nameWithOwner repo in
      if bool_decide (name ∈ t_repos t) || bool_decide (name ∈ _exclude_repos cfg)
      then t
      else Tally (t_stargazers t + default 0 (stargazers_totalCount repo))
                 (t_forks t + default 0 (forkCount repo))
                 (foldl add_language (t_languages t)
                        (default [] (languages_edges repo)))
                 ({[name]} ∪ t_repos t)
  end.

Definition nodes_of (c : option connection) : list (option repo_node) :=
  default [] (c ≫= nodes).

Definition has_next (c : option connection) : bool :=
  default false ((c ≫= pageInfo) ≫= hasNextPage).

Definition next_cursor (c : option connection) (current : option string)
  : option string :=
  default current ((c ≫= pageInfo) ≫= endCursor).

(** [repos], the list the loop of one page runs over. *)
Definition page_repos (raw : option viewer) : list (option repo_node) :=
  let contrib_repos := raw ≫= repositoriesContributedTo in
  let owned_repos := raw ≫= repositories in
  if negb (_ignore_forked_repos cfg)
  then nodes_of owned_repos ++ nodes_of contrib_repos
  else nodes_of owned_repos.

Definition page_name (raw : option viewer) : option string :=
  match raw ≫= v_name with
  | Some n => Some n
  | None => Some (default "No Name" (raw ≫= v_login))
  end.

(** [while True: ...], at most [fuel] iterations. *)
Fixpoint discover (fuel : nat) (next_owned next_contrib : option string)
    (t : tally) : M tally :=
  match fuel with
  | O => λ w, (Diverge, w)
  | S fuel' =>
      let* raw_results := query_overview next_owned next_contrib in
      modify (set_name (page_name raw_results)) ;;;
      let contrib_repos := raw_results ≫= repositoriesContributedTo in
      let owned_repos := raw_results ≫= repositories in
      let t' := foldl add_repo t (page_repos raw_results) in
      modify (set_tally t') ;;;
      if has_next owned_repos || has_next contrib_repos
      then discover fuel' (next_cursor owned_repos next_owned)
                    (next_cursor contrib_repos next_contrib) t'
      else ret t'
  end.

Definition langs_total (languages : gmap string lang_entry) : Z :=
  foldr Z.add 0 (l_size <$> (map_to_list languages).*2).

Definition with_prop (total : Z) (e : lang_entry) : lang_entry :=
  LangEntry (l_size e) (l_occurrences e) (l_color e)
            (Some (Zc 100 * (Zc (l_size e) / Zc total))%Qc).

Definition get_stats (fuel : nat) : M unit :=
  let t0 := Tally 0 0 ∅ ∅ in
  modify (set_tally t0) ;;;
  let* t := discover fuel None None t0 in
  let total := langs_total (t_languages t) in
  if bool_decide (t_languages t = ∅) then ret tt
  else if total =? 0 then raise ZeroDivisionError
  else modify (set_languages (with_prop total <$> t_languages t)).

(** The property [repos]. *)
Definition repos (fuel : nat) : M (gset string) :=
  let* w := get_world in
  match _repos w with
  | Some r => ret r
  | None =>
      get_stats fuel ;;;
      let* w' := get_world in or_raise AssertionError (_repos w')
  end.

(** *** lines_changed *)

(** One week of one author, inside one contributors reply. *)
Definition add_week (acc : Z * Z) (week : week) : Z * Z :=
  (acc.1 + default 0 (wk_a week), acc.2 + default 0 (wk_d week)).

(** The body of [for author_obj in r]. *)
Definition add_author (acc : Z * Z) (author_obj : author_obj) : Z * Z :=
  if negb (bool_decide (ao_login author_obj = Some (username cfg))) then acc
  else foldl add_week acc (default [] (ao_weeks author_obj)).

(** The body of [for repo in await self.repos] on the cold path. *)
Definition scan_repo (repo : string) (acc : Z * Z) : M (Z * Z) :=
  let* r := query_rest (contributors_at R)
              ("/repos/" ++ repo ++ "/stats/contributors")%string in
  match r with
  | None => ret acc
  | Some authors => ret (foldl add_author acc authors)
  end.

(** The body of [for commit in event["payload"].get("commits", [])]. *)
Definition since_commit (since_dt : Z) (repo : string) (sha : string)
    (acc : Z * Z * string) : M (Z * Z * string) :=
  let* data := query_rest (commit_at R)
                 ("/repos/" ++ repo ++ "/commits/" ++ sha)%string in
  match data with
  | None => ret acc
  | Some data =>
      let commit_iso := cd_author_date data in
      let* commit_dt := or_raise ValueError (fromisoformat R commit_iso) in
      if commit_dt <=? since_dt then ret acc
      else match cd_stats data with
           | None => ret acc
           | Some stats =>
               let '(additions, deletions, newest_commit_date) := acc in
               ret (additions + default 0 stats.1,
                    deletions + default 0 stats.2,
                    if String.ltb newest_commit_date commit_iso
                    then commit_iso else newest_commit_date)
           end
  end.

(** The body of [for event in events]. *)
Definition since_event (since_dt : Z) (event : event) (acc : Z * Z * string)
  : M (Z * Z * string) :=
  if negb (bool_decide (ev_type event = Some "PushEvent")) then ret acc
  else for_acc (default [] (ev_commits event))
               (since_commit since_dt (ev_repo_name event)) acc.

Definition events_path : string :=
  ("/users/" ++ username cfg ++ "/events")%string.

Definition lines_changed_since (since_iso : json) : M (Z * Z * string) :=
  match since_iso with
  | JStr since_iso =>
      let* since_dt := or_raise ValueError (fromisoformat R since_iso) in
      let* events := query_rest (events_at R) events_path in
      for_acc events (since_event since_dt) (0, 0, since_iso)
  | _ => raise AttributeError               (* [.replace] on a non-str *)
  end.

(** The property [lines_changed]. *)
Definition lines_changed (fuel : nat) : M (json * json) :=
  let* cache := Cache.load_cache in
  let lc := Cache.get_lines_changed cache in
  if negb (truthy lc) then
    let* rs := repos fuel in
    let* sums := for_acc (elements rs) scan_repo (0, 0) in
    let '(additions, deletions) := sums in
    let* w := get_world in
    let now := (isoformat R (clock w) ++ "Z")%string in
    let cache := Cache.set_lines_changed cache
                   (JInt additions) (JInt deletions) (JStr now) in
    Cache.save_cache (isoformat R) cache ;;;
    modify (set_lines_changed_attr (JInt additions, JInt deletions)) ;;;
    ret (JInt additions, JInt deletions)
  else
    let* additions := subscript lc "additions" in
    let* deletions := subscript lc "deletions" in
    let* since := subscript lc "last_commit_date" in
    let* delta := lines_changed_since since in
    let '(delta_add, delta_del, newest) := delta in
    if (delta_add =? 0) && (delta_del =? 0) then
      modify (set_lines_changed_attr (additions, deletions)) ;;;
      ret (additions, deletions)
    else
      let* additions := py_add_int additions delta_add in
      let* deletions := py_add_int deletions delta_del in
      let cache := Cache.set_lines_changed cache
                     additions deletions (JStr newest) in
      Cache.save_cache (isoformat R) cache ;;;
      modify (set_lines_changed_attr (additions, deletions)) ;;;
      ret (additions, deletions).

(** *** recent_commits *)

(** [for event in events: ...] of [recent_commit_fingerprints], with its
    [break]. *)
Fixpoint fingerprints_from (limit : Z) (events : list event)
    (fingerprints : list string) : list string :=
  match events with
  | [] => fingerprints
  | event :: events' =>
      if negb (bool_decide (ev_type event = Some "PushEvent"))
      then fingerprints_from limit events' fingerprints
      else
        let repo := ev_repo_name event in
        match ev_head event with
        | None => fingerprints_from limit events' fingerprints
        | Some head =>
            if String.eqb head "" then fingerprints_from limit events' fingerprints
            else
              let sha := Py.prefix 7 head in
              let fp := (repo ++ "@" ++ sha)%string in
              let fingerprints :=
                if bool_decide (fp ∈ fingerprints) then fingerprints
                else fingerprints ++ [fp] in
              if Z.of_nat (length fingerprints) >=? limit then fingerprints
              else fingerprints_from limit events' fingerprints
        end
  end.

Definition recent_commit_fingerprints (limit : Z) : M (list string) :=
  let* events := query_rest (events_at R) events_path in
  ret (fingerprints_from limit events []).

Definition detail_path (owner repo short_sha : string) : string :=
  ("/repos/" ++ owner ++ "/" ++ repo ++ "/commits/" ++ short_sha)%string.

(** The body of [for fp in fingerprints]. *)
Definition fetch_one (fp : string) (commits : list commit_info)
  : M (list commit_info) :=
  let* parts := or_raise ValueError (Py.rsplit1 "@" fp) in
  let '(repo_full, short_sha) := parts in
  match Py.split "/" repo_full with
  | [owner; repo] =>
      let* data := query_rest (commit_at R) (detail_path owner repo short_sha) in
      match data with
      | None => ret commits
      | Some data =>
          ret (commits ++
               [CommitInfo (owner ++ "/" ++ repo)%string
                           (default EmptyString (head (Py.split "010" (cd_message data))))
                           (cd_author_name data)
                           (cd_author_date data)
                           short_sha])
      end
  | _ => raise ValueError
  end.

Definition fetch_commit_details (fingerprints : list string)
  : M (list commit_info) :=
  for_acc fingerprints fetch_one [].

Definition recent_commits (limit : Z) : M (list commit_info) :=
  let* cache := Cache.load_cache in
  let cached := Cache.get_recent_commits cache in
  let* old_fps :=
    if truthy cached then subscript cached "fingerprints" else ret (JList []) in
  let* new_fps := recent_commit_fingerprints limit in
  if negb (truthy old_fps) && negb (truthy (JList (JStr <$> new_fps))) then
    let* cache := Cache.set_recent_commits (isoformat R) cache [] in
    Cache.save_cache (isoformat R) cache ;;;
    ret []
  else if truthy old_fps && json_eq_strs new_fps old_fps then
    match old_fps with
    | JList l =>
        let* fps := or_raise TypeError (strs_of l) in fetch_commit_details fps
    | _ => raise TypeError
    end
  else
    let* commits := fetch_commit_details new_fps in
    let* cache := Cache.set_recent_commits (isoformat R) cache new_fps in
    Cache.save_cache (isoformat R) cache ;;;
    ret commits.


End WithRemote.
End Stats.

(** * Vocabulary of the properties *)

Import Queries.
Import Stats.

Section Vocabulary.
Variable cfg : config.
Variable R : remote.

Definition run {A} (c : M A) (w : world) : outcome A * world := c w.

(** The document the cache file holds, if it holds one. *)
Definition persisted (w : world) : option (gmap string json) :=
  match cache_file w with
  | Parsed (JObj m) => Some m
  | _ => None
  end.

(** A world in which nothing has happened yet. *)
Definition fresh_world (f : file) : world :=
  World f 0 [] [] None None None None None None.

Fixpoint all_space (s : string) : bool :=
  match s with
  | EmptyString => true
  | String c s' => Py.isspace c && all_space s'
  end.

(** The primary transport failed: the request or the decoding raised. *)
Definition primary_failed (r : reply) : bool :=
  match r with
  | Fails | Replies _ JsonError => true
  | Replies _ (Body _) => false
  end.

(** [result if result is not None else dict()] *)
Definition or_empty (j : json) : json :=
  if is_none j then JObj ∅ else j.







(** The identifiers of the nodes of a list that are not null. *)
Definition names_of (l : list (option repo_node)) : list string :=
  nameWithOwner <$> omap id l.







(** The world after requests for [paths] have gone through [query_rest]. *)
Definition after_rest (paths : list string) (w : world) : world :=
  World (cache_file w) (clock w + length paths) (rest_sent w ++ paths)
        (overview_sent w) (_name w) (_stargazers w) (_forks w)
        (_languages w) (_repos w) (_lines_changed w).

(** The three parts of a fingerprint ["owner/repo@sha"]. *)
Definition parse_fp (fp : string) : option (string * string * string) :=
  match Py.rsplit1 "@" fp with
  | Some (repo_full, short_sha) =>
      match Py.split "/" repo_full with
      | [owner; repo] => Some (owner, repo, short_sha)
      | _ => None
      end
  | None => None
  end.

Definition path_of_fp (fp : string) : option string :=
  (λ p, detail_path p.1.1 p.1.2 p.2) <$> parse_fp fp.

Definition info_of (owner repo short_sha : string) (data : commit_data)
  : commit_info :=
  CommitInfo (owner ++ "/" ++ repo)%string
             (default EmptyString (head (Py.split "010" (cd_message data))))
             (cd_author_name data) (cd_author_date data) short_sha.

(** The detail the service gives for each fingerprint when asked one after
    the other from instant [t] on. *)
Fixpoint details_from (t : nat) (fps : list string) : list commit_info :=
  match fps with
  | [] => []
  | fp :: fps' =>
      match parse_fp fp with
      | Some (owner, repo, short_sha) =>
          match commit_at R t (detail_path owner repo short_sha) with
          | Some data => [info_of owner repo short_sha data]
          | None => []
          end ++ details_from (S t) fps'
      | None => []
      end
  end.

Definition Zsum (l : list Z) : Z := foldr Z.add 0 l.

(** The later of two timestamps, compared as strings. *)
Definition later (n d : string) : string := if String.ltb n d then d else n.

Definition newest_of (since : string) (dates : list string) : string :=
  foldl later since dates.

Definition additions_of (data : Stats.commit_data) : Z :=
  default 0 (Stats.cd_stats data ≫= fst).

Definition deletions_of (data : Stats.commit_data) : Z :=
  default 0 (Stats.cd_stats data ≫= snd).

(** The (repository, sha) of every commit of every push event, in the
    order [lines_changed_since] meets them. *)
Definition push_commits (events : list event) : list (string * string) :=
  events ≫= λ event,
    if bool_decide (ev_type event = Some "PushEvent")
    then (λ sha, (ev_repo_name event, sha)) <$> default [] (ev_commits event)
    else [].

Definition commit_path (c : string * string) : string :=
  ("/repos/" ++ c.1 ++ "/commits/" ++ c.2)%string.

(** Of the commits fetched one after the other from instant [t] on, those
    that are authored after the watermark and carry statistics. *)
Fixpoint new_commits (since_dt : Z) (t : nat) (cs : list (string * string))
  : list commit_data :=
  match cs with
  | [] => []
  | c :: cs' =>
      match commit_at R t (commit_path c) with
      | Some data =>
          match fromisoformat R (cd_author_date data), cd_stats data with
          | Some dt, Some _ => if since_dt <? dt then [data] else []
          | _, _ => []
          end
      | None => []
      end ++ new_commits since_dt (S t) cs'
  end.

(** Every timestamp the service sends can be read. *)
Definition dates_parse : Prop :=
  ∀ t path data, commit_at R t path = Some data →
                 is_Some (fromisoformat R (cd_author_date data)).

(** The three local variables of [lines_changed_since] after [news]. *)
Definition tally_of (acc : Z * Z * string) (news : list commit_data)
  : Z * Z * string :=
  (acc.1.1 + Zsum (additions_of <$> news),
   acc.1.2 + Zsum (deletions_of <$> news),
   newest_of acc.2 (cd_author_date <$> news)).

End Vocabulary.

(** ** Concrete runs *)

Module Demo.

Definition two_digits (n : nat) : string :=
  String (ascii_of_nat (48 + (n / 10) mod 10))
         (String (ascii_of_nat (48 + n mod 10)) EmptyString).

(** A clock that starts on 2024-05-01 at 10:00:00 and ticks in seconds. *)
Definition iso (n : nat) : string :=
  ("2024-05-01T10:00:" ++ two_digits n)%string.

Fixpoint digits (s : string) (acc : Z) : Z :=
  match s with
  | EmptyString => acc
  | String c s' =>
      let n := Z.of_nat (nat_of_ascii c) in
      if (48 <=? n) && (n <=? 57) then digits s' (acc * 10 + (n - 48))
      else digits s' acc
  end.

(** Reads [YYYY-MM-DDTHH:MM:SS] as the number YYYYMMDDHHMMSS, which orders
    UTC timestamps given to the second as the instants they denote. *)
Definition instant (s : string) : option Z :=
  Some (digits (Py.prefix 19 s) 0).

Definition remote_of (pages : nat → option Stats.viewer)
    (events : list Stats.event) (detail : option Stats.commit_data)
    (authors : option (list Stats.author_obj)) : Stats.remote :=
  Stats.Remote iso instant pages (λ _ _, events) (λ _ _, detail)
               (λ _ _, authors).

Definition cfg : Stats.config := Stats.Config "alice" false ∅ ∅.

Definition node (name lang : string) (bytes : Z) : option Stats.repo_node :=
  Some (Stats.RepoNode name (Some 1) (Some 0)
          (Some [Stats.LangEdge (Some bytes)
                   (Some (Stats.LangNode (Some lang) None))])).

Definition edge (next : bool) (l : list (option Stats.repo_node))
  : option Stats.connection :=
  Some (Stats.Connection (Some (Stats.PageInfo (Some next) (Some (Some "cursor"))))
                         (Some l)).



(** One page with one owned repository. *)
Definition one_repo : option Stats.viewer :=
  Some (Stats.Viewer (Some "Alice") (Some "alice")
          (edge false [node "alice/r" "Coq" 30]) (edge false [])).

Definition push : Stats.event :=
  Stats.Event (Some "PushEvent") "o/r" (Some "abc1234def5678")
              (Some ["abc1234def5678"]).

Definition detail (stats : option (option Z * option Z))
  : option Stats.commit_data :=
  Some (Stats.CommitData "Fix the parser" "Alice" "2024-05-02T09:00:00Z" stats).

Definition contributors : option (list Stats.author_obj) :=
  Some [Stats.AuthorObj (Some "bob") (Some [Stats.Week (Some 100) (Some 50)]);
        Stats.AuthorObj (Some "alice")
          (Some [Stats.Week (Some 5) (Some 2); Stats.Week (Some 3) (Some 1)])].

(** A cache written by an earlier run. *)
Definition cached : gmap string json :=
  <["version" := JInt 1]>
  (<["updated_at" := JStr "2024-05-01T10:00:00Z"]>
   (<["lines_changed" :=
        Cache.lines_changed_entry (JInt 10) (JInt 4) (JStr "2024-05-01T10:00:00Z")]>
    {["recent_commits" :=
        Cache.recent_commits_entry ["o/r@abc1234"] "2024-05-01T10:00:00Z"]})).

Definition warm_world : world := fresh_world (Parsed (JObj cached)).
Definition cold_world : world := fresh_world NoFile.

End Demo.

(** * Properties *)

(** ** Running a computation *)

Lemma bind_ret {A B} (c : M A) (k : A → M B) (w w' : world) (a : A) :
  c w = (Ret a, w') → bind c k w = k a w'.
Proof. intros H. unfold bind. by rewrite H. Qed.

(** ** Cache store *)

Lemma load_cache_pure (w : world) : (Cache.load_cache w).2 = w.
Proof.
  unfold Cache.load_cache, bind, get_world, ret, raise; simpl.
  destruct (cache_file w) as [| |j]; try done.
  destruct j; try done.
  by destruct (negb _).
Qed.

Lemma save_cache_run (iso : nat → string) (x : gmap string json) (w : world) :
  Cache.save_cache iso x w =
  (Ret tt,
   set_cache_file
     (Parsed (JObj (x ∪ <["version" := JInt Cache.CACHE_VERSION]>
                          {["updated_at" := JStr (iso (clock w) ++ "Z")%string]})))
     w).
Proof. reflexivity. Qed.

Lemma load_cache_parsed (data : gmap string json) (w : world) :
  cache_file w = Parsed (JObj data) →
  Cache.load_cache w =
  (if py_eq_int (dict_get data "version") Cache.CACHE_VERSION
   then Ret (Some data) else Ret None, w).
Proof.
  intros H. unfold Cache.load_cache, bind, get_world; simpl. rewrite H.
  by destruct (py_eq_int _ _).
Qed.

(** A file holding valid JSON that is not an object is none of the three
    cases: [data.get] raises. *)
Lemma load_cache_non_object (w : world) :
  cache_file w = Parsed (JList []) →
  (Cache.load_cache w).1 = Raise AttributeError.
Proof. intros H. unfold Cache.load_cache, bind, get_world; simpl. by rewrite H. Qed.

(** C3, as stated, fails: a document that carries its own ["version"]
    field, different from the constant, is written with that field and is
    rejected by the next [load_cache]. *)
Lemma save_load_wrong_version :
  ¬ (∀ (iso : nat → string) (x : gmap string json) (w : world),
       ∃ d, (run (Cache.save_cache iso x ;;; Cache.load_cache) w).1 = Ret (Some d)
            ∧ (∀ k v, x !! k = Some v → d !! k = Some v)
            ∧ is_Some (d !! "version") ∧ is_Some (d !! "updated_at")).
Proof.
  intros H.
  destruct (H (λ _, "t") {["version" := JInt 2]} (fresh_world NoFile))
    as (d & Hrun & _).
  vm_compute in Hrun. discriminate.
Qed.

(** C3, amended: [save_cache x] then [load_cache] yields a document holding
    every field of [x], a ["version"] equal to the constant and an
    ["updated_at"] field (the time of the write unless [x] has its own),
    provided [x] has no ["version"] field or one equal to the constant;
    and [load_cache] yields absent when the file is missing, does not
    parse, or parses to an object whose ["version"] is missing or differs
    from the constant. *)
Theorem save_load_round_trip (iso : nat → string) (x : gmap string json)
    (w : world) (f : file) :
  py_eq_int (default (JInt Cache.CACHE_VERSION) (x !! "version"))
            Cache.CACHE_VERSION = true →
  (∃ d, (run (Cache.save_cache iso x ;;; Cache.load_cache) w).1 = Ret (Some d)
        ∧ (∀ k v, x !! k = Some v → d !! k = Some v)
        ∧ py_eq_int (dict_get d "version") Cache.CACHE_VERSION = true
        ∧ d !! "updated_at"
          = Some (default (JStr (iso (clock w) ++ "Z")%string) (x !! "updated_at")))
  ∧ (f = NoFile ∨ f = Unparsable
     ∨ (∃ data, f = Parsed (JObj data)
                ∧ py_eq_int (dict_get data "version") Cache.CACHE_VERSION = false) →
     run Cache.load_cache (set_cache_file f w) = (Ret None, set_cache_file f w)).
Proof.
  intros Hv. split.
  - eexists. unfold run. erewrite bind_ret by apply save_cache_run.
    erewrite load_cache_parsed by reflexivity.
    assert (Hver : py_eq_int
      (dict_get (x ∪ <["version" := JInt Cache.CACHE_VERSION]>
                       {["updated_at" := JStr (iso (clock w) ++ "Z")%string]})
                "version") Cache.CACHE_VERSION = true).
    { unfold dict_get. rewrite lookup_union.
      destruct (x !! "version") as [v|] eqn:Hx; simpl.
      - by rewrite lookup_insert_eq.
      - by rewrite lookup_insert_eq. }
    rewrite Hver. simpl. split; [done|]. split; [|split; [done|]].
    + intros k v Hk. by apply lookup_union_Some_l.
    + rewrite lookup_union.
      rewrite lookup_insert_ne by done. rewrite lookup_singleton_eq.
      by destruct (x !! "updated_at").
  - intros [-> | [-> | (data & -> & Hd)]]; try reflexivity.
    unfold run. erewrite load_cache_parsed by reflexivity. by rewrite Hd.
Qed.

(** A document with one field, saved on a fresh file system and loaded. *)
Lemma save_load_round_trip_witness :
  ∃ d, (run (Cache.save_cache (λ _, "2024-05-01T10:00:00")
               {["lines_changed" := JInt 7]} ;;; Cache.load_cache)
            (fresh_world NoFile)).1 = Ret (Some d)
       ∧ d !! "lines_changed" = Some (JInt 7).
Proof.
  destruct (save_load_round_trip (λ _, "2024-05-01T10:00:00")
              {["lines_changed" := JInt 7]} (fresh_world NoFile) NoFile)
    as [(d & Hrun & Hfields & _) _].
  - reflexivity.
  - exists d. split; [exact Hrun|]. apply Hfields. reflexivity.
Defined.

(** C10: the two setters write one key each, and [save_cache] persists
    every key it is given: after an update of one namespace is saved, the
    persisted document holds the other namespace as the document had it.
    An absent document counts as the empty one. *)
Theorem sub_cache_update_frame (iso : nat → string)
    (d : option (gmap string json)) (additions deletions date : json)
    (fingerprints : list string) (w : world) (k : string) :
  (k ≠ "lines_changed" →
     Cache.set_lines_changed d additions deletions date !! k = default ∅ d !! k)
  ∧ (∃ c, run (Cache.set_recent_commits iso d fingerprints) w = (Ret c, w)
          ∧ (k ≠ "recent_commits" → c !! k = default ∅ d !! k)
          ∧ ∃ m, persisted (run (Cache.save_cache iso c) w).2 = Some m
                 ∧ (∀ k' v, c !! k' = Some v → m !! k' = Some v)
                 ∧ m !! "lines_changed" = default ∅ d !! "lines_changed")
  ∧ (∃ m, persisted
            (run (Cache.save_cache iso
                    (Cache.set_lines_changed d additions deletions date)) w).2
          = Some m
          ∧ (∀ k' v, Cache.set_lines_changed d additions deletions date !! k'
                     = Some v → m !! k' = Some v)
          ∧ m !! "recent_commits" = default ∅ d !! "recent_commits").
Proof.
  assert (Hd : match d with None => ∅ | Some c => c end = default ∅ d)
    by by destruct d.
  split; [|split].
  - intros Hk. unfold Cache.set_lines_changed. rewrite Hd.
    by rewrite lookup_insert_ne.
  - eexists. split; [reflexivity|]. rewrite Hd. split.
    + intros Hk. by rewrite lookup_insert_ne.
    + eexists. split; [reflexivity|]. split.
      * intros k' v Hk'. by apply lookup_union_Some_l.
      * rewrite lookup_union, lookup_insert_ne by done.
        rewrite lookup_insert_ne, lookup_singleton_ne by done.
        by destruct (default ∅ d !! "lines_changed").
  - eexists. split; [reflexivity|]. split.
    + intros k' v Hk'. by apply lookup_union_Some_l.
    + unfold Cache.set_lines_changed. rewrite Hd.
      rewrite lookup_union, lookup_insert_ne by done.
      rewrite lookup_insert_ne, lookup_singleton_ne by done.
      by destruct (default ∅ d !! "recent_commits").
Qed.

(** Setting the line counts of a document that holds recent commits. *)
Lemma sub_cache_update_frame_witness :
  Cache.set_lines_changed (Some {["recent_commits" := JInt 4]})
    (JInt 1) (JInt 2) (JStr "t") !! "recent_commits" = Some (JInt 4).
Proof.
  destruct (sub_cache_update_frame (λ _, "t")
              (Some {["recent_commits" := JInt 4]}) (JInt 1) (JInt 2) (JStr "t")
              [] (fresh_world NoFile) "recent_commits") as [H _].
  rewrite H; [reflexivity | discriminate].
Defined.

(** ** The "ignore forked contributions" flag *)

Lemma append_cons (c : ascii) (l x : string) :
  (String c l ++ x)%string = String c (l ++ x)%string.
Proof. reflexivity. Qed.

Lemma append_nil (x : string) : (EmptyString ++ x)%string = x.
Proof. reflexivity. Qed.

Lemma lstrip_app_space (l s : string) :
  all_space l = true → Py.lstrip (l ++ s) = Py.lstrip s.
Proof.
  induction l as [|c l IH]; simpl; [done|].
  intros [Hc Hl]%andb_prop. rewrite ?append_cons. simpl. rewrite Hc. auto.
Qed.

Lemma rstrip_all_space (r : string) :
  all_space r = true → Py.rstrip r = EmptyString.
Proof.
  induction r as [|c r IH]; simpl; [done|].
  intros [Hc Hr]%andb_prop. by rewrite IH, Hc.
Qed.

Lemma lstrip_decompose (s : string) :
  ∃ l, s = (l ++ Py.lstrip s)%string ∧ all_space l = true.
Proof.
  induction s as [|c s (l & Hs & Hl)]; simpl.
  - by exists EmptyString.
  - destruct (Py.isspace c) eqn:Hc.
    + exists (String c l). simpl. rewrite Hc, Hl, append_cons.
      split; [congruence|done].
    + by exists EmptyString.
Qed.

Lemma rstrip_decompose (s : string) :
  ∃ r, s = (Py.rstrip s ++ r)%string ∧ all_space r = true.
Proof.
  induction s as [|c s (r & Hs & Hr)]; simpl.
  - by exists EmptyString.
  - destruct (Py.rstrip s) as [|c' t] eqn:Ht.
    + destruct (Py.isspace c) eqn:Hc.
      * exists (String c s). rewrite append_nil. split; [done|].
        simpl. rewrite Hc. simpl. rewrite Hs, append_nil. done.
      * exists r. rewrite append_cons. rewrite append_nil in *.
        split; [congruence|done].
    + exists r. rewrite append_cons. split; [congruence|done].
Qed.

(** The five letters of "false", in either case, are no white space. *)
Lemma lower_false_shape (m : string) :
  Py.lower m = "false" →
  ∃ c1 c2 c3 c4 c5, m = String c1 (String c2 (String c3 (String c4 (String c5 EmptyString))))
    ∧ Py.isspace c1 = false ∧ Py.isspace c5 = false.
Proof.
  destruct m as [|c1 [|c2 [|c3 [|c4 [|c5 [|? ?]]]]]]; simpl; try discriminate.
  intros H. injection H as H1 _ _ _ H5.
  exists c1, c2, c3, c4, c5. split; [done|].
  split.
  - destruct c1 as [[] [] [] [] [] [] [] []]; vm_compute in H1; try discriminate;
      reflexivity.
  - destruct c5 as [[] [] [] [] [] [] [] []]; vm_compute in H5; try discriminate;
      reflexivity.
Qed.

Lemma rstrip_app_space (m r : string) (c : ascii) :
  Py.isspace c = false → all_space r = true →
  Py.rstrip (m ++ String c r) = (m ++ String c EmptyString)%string.
Proof.
  intros Hc Hr. induction m as [|c' m IH].
  - rewrite !append_nil. simpl. by rewrite (rstrip_all_space r Hr), Hc.
  - rewrite !append_cons. simpl. rewrite IH.
    destruct m; [by rewrite append_nil | by rewrite append_cons].
Qed.

Lemma strip_false (l m r : string) :
  all_space l = true → all_space r = true → Py.lower m = "false" →
  Py.strip (l ++ m ++ r) = m.
Proof.
  intros Hl Hr (c1 & c2 & c3 & c4 & c5 & -> & H1 & H5)%lower_false_shape.
  unfold Py.strip. rewrite lstrip_app_space by done.
  rewrite !append_cons, append_nil. simpl Py.lstrip. rewrite H1.
  change (String c1 (String c2 (String c3 (String c4 (String c5 r)))))
    with ((String c1 (String c2 (String c3 (String c4 EmptyString))))
            ++ String c5 r)%string.
  by rewrite rstrip_app_space.
Qed.

(** C9, as stated, fails: a value with white space around "false" is
    non-empty and is not the string "false" in any case, and the flag is
    false. *)
Lemma flag_padded_false :
  " false" ≠ "" ∧ Py.lower " false" ≠ "false"
  ∧ Main.ignore_forked_repos (Some " false") = false.
Proof. repeat split; discriminate. Qed.

(** C9, amended: the flag is false exactly when the variable is absent,
    empty, or reads "false" in any mix of cases once the white space
    around it is removed; every other value makes it true. *)
Theorem ignore_forked_repos_false_iff (raw : option string) :
  Main.ignore_forked_repos raw = false ↔
  raw = None ∨ raw = Some EmptyString
  ∨ ∃ l m r, raw = Some (l ++ m ++ r)%string
             ∧ all_space l = true ∧ all_space r = true
             ∧ Py.lower m = "false".
Proof.
  split.
  - destruct raw as [s|]; [|by left]. simpl.
    intros [H|H]%andb_false_iff.
    + right; left. apply negb_false_iff, String.eqb_eq in H. by subst.
    + right; right. apply negb_false_iff, String.eqb_eq in H.
      destruct (lstrip_decompose s) as (l & Hs & Hl).
      destruct (rstrip_decompose (Py.lstrip s)) as (r & Hs' & Hr).
      exists l, (Py.strip s), r. unfold Py.strip in *.
      by rewrite <- Hs', <- Hs.
  - intros [-> | [-> | (l & m & r & -> & Hl & Hr & Hm)]]; try reflexivity.
    simpl. rewrite strip_false by done. rewrite Hm. simpl.
    apply andb_false_r.
Qed.

(** ** Transport client *)

(** C5, as stated, fails: when both transports fail, the exception of the
    fallback leaves [query]. *)
Lemma query_fallback_failure_escapes :
  ¬ (∀ (primary fallback : reply) (q : string),
       ∃ j, (query primary fallback q).1 = Ret j).
Proof.
  intros H. destruct (H Fails Fails "{ viewer { login } }") as [j Hj].
  discriminate.
Qed.

(** C5, amended: a primary transport that answers is used alone; when it
    fails, the fallback is tried exactly once; a decoded body is returned,
    the empty dict in place of a null one; a failure of the fallback
    itself is raised to the caller. *)
Theorem query_fallback_once (primary fallback : reply) (q : string) :
  (∀ s j, primary = Replies s (Body j) →
          query primary fallback q = (Ret (or_empty j), [AsyncPost q]))
  ∧ (primary_failed primary = true →
     (query primary fallback q).2 = [AsyncPost q; SyncPost q]
     ∧ (∀ s j, fallback = Replies s (Body j) →
               (query primary fallback q).1 = Ret (or_empty j))
     ∧ (primary_failed fallback = true →
        (query primary fallback q).1 = Raise TransportError)).
Proof.
  split.
  - intros s j ->. unfold query, or_empty. by destruct (is_none j).
  - intros Hp. destruct primary as [|s [|j]]; try discriminate;
      (split; [reflexivity|]); split.
    all: try (intros s' j ->; unfold query, or_empty; simpl;
              by destruct (is_none j)).
    all: destruct fallback as [|s' [|j]]; try discriminate; reflexivity.
Qed.

(** The primary transport fails and the fallback answers 3. *)
Lemma query_fallback_once_witness :
  (query Fails (Replies 200 (Body (JInt 3))) "q").2 = [AsyncPost "q"; SyncPost "q"]
  ∧ (query Fails (Replies 200 (Body (JInt 3))) "q").1 = Ret (JInt 3).
Proof.
  destruct (query_fallback_once Fails (Replies 200 (Body (JInt 3))) "q")
    as [_ H].
  destruct (H eq_refl) as (Ht & Hr & _).
  split; [exact Ht | exact (Hr 200 (JInt 3) eq_refl)].
Defined.








(** ** Repository discovery *)

Section Discovery.
Variable cfg : config.
Variable R : remote.


Lemma names_of_app (l1 l2 : list (option repo_node)) :
  names_of (l1 ++ l2) = names_of l1 ++ names_of l2.
Proof. unfold names_of. by rewrite omap_app, fmap_app. Qed.



End Discovery.

Section DiscoveryResults.
Variable cfg : config.
Variable R : remote.




Lemma get_stats_unfold (fuel : nat) (w : world) :
  get_stats cfg R fuel w
  = match discover cfg R fuel None None (Tally 0 0 ∅ ∅)
            (set_tally (Tally 0 0 ∅ ∅) w) with
    | (Ret t, w1) =>
        if bool_decide (t_languages t = ∅) then (Ret tt, w1)
        else if langs_total (t_languages t) =? 0
             then (Raise ZeroDivisionError, w1)
             else (Ret tt,
                   set_languages
                     (with_prop (langs_total (t_languages t)) <$> t_languages t)
                     w1)
    | (Raise e, w1) => (Raise e, w1)
    | (Diverge, w1) => (Diverge, w1)
    end.
Proof.
  unfold get_stats. unfold bind at 1, modify. unfold bind at 1.
  destruct (discover _ _ _ _ _ _ _) as [[t| |] w1]; try done.
  destruct (bool_decide _); [done|]. by destruct (_ =? 0).
Qed.








(** With recorded languages whose sizes add up to zero, the division
    raises and [get_stats] leaves no share behind. *)
Lemma languages_prop_zero_total (fuel : nat) (w w1 : world) (t : tally) :
  discover cfg R fuel None None (Tally 0 0 ∅ ∅) (set_tally (Tally 0 0 ∅ ∅) w)
    = (Ret t, w1) →
  t_languages t ≠ ∅ → langs_total (t_languages t) = 0 →
  run (get_stats cfg R fuel) w = (Raise ZeroDivisionError, w1).
Proof.
  intros Hrun He H0. unfold run. rewrite get_stats_unfold, Hrun.
  rewrite bool_decide_eq_false_2 by done. by rewrite H0.
Qed.

End DiscoveryResults.





(** ** Reconcilers *)

Lemma after_rest_nil (w : world) : after_rest [] w = w.
Proof.
  destruct w. unfold after_rest. simpl. by rewrite Nat.add_0_r, app_nil_r.
Qed.

Lemma after_rest_app (p q : list string) (w : world) :
  after_rest q (after_rest p w) = after_rest (p ++ q) w.
Proof.
  unfold after_rest. simpl. rewrite length_app, Nat.add_assoc.
  by rewrite (assoc_L (++)).
Qed.

Lemma query_rest_run {A} (reply_at : nat → string → A) (path : string)
    (w : world) :
  query_rest reply_at path w = (Ret (reply_at (clock w) path), after_rest [path] w).
Proof.
  unfold query_rest, after_rest. simpl. by rewrite Nat.add_1_r.
Qed.

Lemma strs_eq_refl (fps : list string) : strs_eq fps (JStr <$> fps) = true.
Proof.
  induction fps as [|s fps IH]; [done|].
  rewrite fmap_cons. cbn [strs_eq]. by rewrite String.eqb_refl.
Qed.

Lemma strs_of_fmap (fps : list string) : strs_of (JStr <$> fps) = Some fps.
Proof.
  induction fps as [|s fps IH]; [done|].
  rewrite fmap_cons. cbn [strs_of]. by rewrite IH.
Qed.

Lemma truthy_obj (m : gmap string json) (k : string) (v : json) :
  m !! k = Some v → truthy (JObj m) = true.
Proof.
  intros H. simpl. rewrite bool_decide_eq_false_2; [done|].
  intros Hd. assert (k ∈ dom m) as Hk by (apply elem_of_dom; by exists v).
  rewrite Hd in Hk. set_solver.
Qed.

Section Reconcilers.
Variable cfg : config.
Variable R : remote.

Lemma fetch_commit_details_run (fps : list string) (acc : list commit_info)
    (w : world) :
  Forall (λ fp, is_Some (parse_fp fp)) fps →
  for_acc fps (fetch_one R) acc w
  = (Ret (acc ++ details_from R (clock w) fps),
     after_rest (omap path_of_fp fps) w).
Proof.
  intros Hfps. revert acc w.
  induction Hfps as [|fp fps [[[o r] s] Hfp] _ IH]; intros acc w.
  - simpl. unfold ret. by rewrite app_nil_r, after_rest_nil.
  - cbn [for_acc omap list_omap details_from]. unfold path_of_fp at 1.
    rewrite Hfp. simpl fmap. cbv beta. simpl fst. simpl snd.
    unfold bind at 1, fetch_one. unfold bind at 1, or_raise.
    unfold parse_fp in Hfp.
    destruct (Py.rsplit1 "@" fp) as [[repo_full short_sha]|]; [|done].
    unfold ret at 1.
    destruct (Py.split "/" repo_full) as [|o' [|r' [|? ?]]]; try done.
    injection Hfp as -> -> ->.
    unfold bind at 1. rewrite query_rest_run.
    destruct (commit_at R (clock w) (detail_path o r s)) as [data|].
    + unfold ret at 1. rewrite IH. simpl clock.
      rewrite after_rest_app, Nat.add_1_r, <- (assoc_L (++)). done.
    + unfold ret at 1. rewrite IH. simpl clock.
      rewrite after_rest_app, Nat.add_1_r. done.
Qed.

(** C1, amended: when the fresh fingerprints are not empty and are the
    cached ones, in order, [recent_commits] fetches the detail of each of
    them anew (no detail is kept from earlier runs), returns what it has
    just fetched, and leaves the cache file as it is. *)
Theorem recent_commits_same_fingerprints (limit : Z) (w : world)
    (c rc : gmap string json) (fps : list string) :
  cache_file w = Parsed (JObj c) →
  py_eq_int (dict_get c "version") Cache.CACHE_VERSION = true →
  c !! "recent_commits" = Some (JObj rc) →
  rc !! "fingerprints" = Some (JList (JStr <$> fps)) →
  fps ≠ [] →
  fingerprints_from limit (events_at R (clock w) (events_path cfg)) [] = fps →
  Forall (λ fp, is_Some (parse_fp fp)) fps →
  run (recent_commits cfg R limit) w
  = (Ret (details_from R (S (clock w)) fps),
     after_rest (events_path cfg :: omap path_of_fp fps) w)
  ∧ length (omap path_of_fp fps) = length fps
  ∧ cache_file (run (recent_commits cfg R limit) w).2 = cache_file w.
Proof.
  intros Hfile Hver Hrc Hfp Hne Hfresh Hwf.
  assert (Hrun : run (recent_commits cfg R limit) w
    = (Ret (details_from R (S (clock w)) fps),
       after_rest (events_path cfg :: omap path_of_fp fps) w)).
  { unfold run, recent_commits.
    erewrite bind_ret by (rewrite (load_cache_parsed c w Hfile), Hver; reflexivity).
    unfold Cache.get_recent_commits.
    rewrite (truthy_obj c _ _ Hrc). simpl negb. cbv iota.
    unfold dict_get. rewrite Hrc. simpl default.
    rewrite (truthy_obj rc _ _ Hfp).
    erewrite bind_ret by (unfold subscript, or_raise; rewrite Hfp; reflexivity).
    erewrite bind_ret; cycle 1.
    { unfold recent_commit_fingerprints.
      erewrite bind_ret by apply query_rest_run.
      rewrite Hfresh. reflexivity. }
    assert (Ht : truthy (JList (JStr <$> fps)) = true)
      by (destruct fps; [done | reflexivity]).
    rewrite Ht. simpl. rewrite strs_eq_refl.
    erewrite bind_ret by (unfold or_raise; rewrite strs_of_fmap; reflexivity).
    unfold fetch_commit_details.
    rewrite fetch_commit_details_run by done.
    rewrite after_rest_app. simpl clock. by rewrite Nat.add_1_r. }
  split; [exact Hrun|]. split.
  - clear -Hwf. induction Hwf as [|fp fps [p Hp] _ IH]; [done|].
    change (omap path_of_fp (fp :: fps))
      with (match path_of_fp fp with
            | Some y => y :: omap path_of_fp fps
            | None => omap path_of_fp fps
            end).
    unfold path_of_fp at 1. rewrite Hp.
    cbn [fmap option_fmap option_map length]. by rewrite IH.
  - by rewrite Hrun.
Qed.

End Reconcilers.

(** C1, as stated, fails: with the cached fingerprints ["o/r@abc1234"]
    and a fresh fetch that yields the same list, the detail of the commit
    is requested again; the only requests are not the one for the events. *)
Lemma same_fingerprints_fetch_again :
  ¬ (∀ (cfg : config) (R : remote) (limit : Z) (w : world)
       (c rc : gmap string json) (fps : list string),
       cache_file w = Parsed (JObj c) →
       py_eq_int (dict_get c "version") Cache.CACHE_VERSION = true →
       c !! "recent_commits" = Some (JObj rc) →
       rc !! "fingerprints" = Some (JList (JStr <$> fps)) →
       fps ≠ [] →
       fingerprints_from limit (events_at R (clock w) (events_path cfg)) [] = fps →
       rest_sent (run (recent_commits cfg R limit) w).2
       = rest_sent w ++ [events_path cfg]).
Proof.
  intros H.
  specialize (H Demo.cfg
                (Demo.remote_of (λ _, None) [Demo.push] (Demo.detail None) None)
                3 Demo.warm_world Demo.cached
                (<["fingerprints" := JList [JStr "o/r@abc1234"]]>
                   {["last_checked" := JStr "2024-05-01T10:00:00Z"]})
                ["o/r@abc1234"] eq_refl eq_refl eq_refl eq_refl).
  assert (Hne : ["o/r@abc1234"] ≠ @nil string) by discriminate.
  specialize (H Hne eq_refl).
  vm_compute in H. discriminate.
Qed.

(** The same scenario: one request for the events, one for the commit. *)
Lemma recent_commits_same_fingerprints_witness :
  run (recent_commits Demo.cfg
         (Demo.remote_of (λ _, None) [Demo.push] (Demo.detail None) None) 3)
      Demo.warm_world
  = (Ret [CommitInfo "o/r" "Fix the parser" "Alice" "2024-05-02T09:00:00Z"
                     "abc1234"],
     after_rest ["/users/alice/events"; "/repos/o/r/commits/abc1234"]
                Demo.warm_world).
Proof.
  destruct (recent_commits_same_fingerprints Demo.cfg
              (Demo.remote_of (λ _, None) [Demo.push] (Demo.detail None) None)
              3 Demo.warm_world Demo.cached
              (<["fingerprints" := JList [JStr "o/r@abc1234"]]>
                 {["last_checked" := JStr "2024-05-01T10:00:00Z"]})
              ["o/r@abc1234"] eq_refl eq_refl eq_refl eq_refl) as [H _].
  - discriminate.
  - reflexivity.
  - constructor; [eexists; reflexivity | constructor].
  - rewrite H. reflexivity.
Defined.

Section LinesChanged.
Variable cfg : config.
Variable R : remote.

Lemma load_cache_run (w : world) :
  Cache.load_cache w = ((Cache.load_cache w).1, w).
Proof.
  rewrite <- (load_cache_pure w) at 3. by destruct (Cache.load_cache w).
Qed.

(** *** Cold path *)

Lemma add_author_others (acc : Z * Z) (l : list author_obj) :
  Forall (λ a, ao_login a ≠ Some (username cfg)) l →
  foldl (add_author cfg) acc l = acc.
Proof.
  intros H. revert acc. induction H as [|a l Ha _ IH]; intros acc; [done|].
  simpl. unfold add_author at 2. rewrite bool_decide_eq_false_2 by done.
  apply IH.
Qed.

Lemma add_author_self (acc : Z * Z) (weeks : list week) :
  add_author cfg acc (AuthorObj (Some (username cfg)) (Some weeks))
  = foldl add_week acc weeks.
Proof. unfold add_author. simpl. by rewrite bool_decide_eq_true_2. Qed.

(** C4: a cold run over one discovered repository whose contributor
    statistics hold, for the tracked user, the weeks {a:5,d:2} and
    {a:3,d:1}, returns (8, 3) and persists these totals with a watermark
    read from the clock once the fetch is over. *)
Theorem cold_run_two_weeks (fuel : nat) (w w1 : world)
    (cache : option (gmap string json)) (r : string)
    (before after : list author_obj) :
  (Cache.load_cache w).1 = Ret cache →
  truthy (Cache.get_lines_changed cache) = false →
  repos cfg R fuel w = (Ret {[r]}, w1) →
  contributors_at R (clock w1) ("/repos/" ++ r ++ "/stats/contributors")%string
  = Some (before
          ++ [AuthorObj (Some (username cfg))
                        (Some [Week (Some 5) (Some 2); Week (Some 3) (Some 1)])]
          ++ after) →
  Forall (λ a, ao_login a ≠ Some (username cfg)) (before ++ after) →
  ∃ w' m lc,
    run (lines_changed cfg R fuel) w = (Ret (JInt 8, JInt 3), w')
    ∧ clock w' = S (clock w1)
    ∧ persisted w' = Some m
    ∧ m !! "lines_changed" = Some (JObj lc)
    ∧ lc !! "additions" = Some (JInt 8)
    ∧ lc !! "deletions" = Some (JInt 3)
    ∧ lc !! "last_commit_date"
      = Some (JStr (isoformat R (clock w') ++ "Z")%string).
Proof.
  intros Hload Hcold Hrepos Hstats [Hb Ha]%Forall_app.
  eexists _, _, _. split.
  { unfold run, lines_changed.
    erewrite bind_ret by (rewrite load_cache_run, Hload; reflexivity).
    rewrite Hcold. cbn [negb].
    erewrite bind_ret by exact Hrepos.
    rewrite elements_singleton. cbn [for_acc].
    erewrite bind_ret; cycle 1.
    { erewrite bind_ret; cycle 1.
      { unfold scan_repo. erewrite bind_ret by apply query_rest_run.
        rewrite Hstats. rewrite !foldl_app, add_author_others by done.
        cbn [foldl]. rewrite add_author_self.
        rewrite add_author_others by done. simpl. reflexivity. }
      reflexivity. }
    cbv iota beta. reflexivity. }
  simpl.
  split; [lia|]. split; [reflexivity|].
  replace (clock w1 + 1)%nat with (S (clock w1)) by lia.
  split.
  { apply lookup_union_Some_l. unfold Cache.set_lines_changed.
    apply lookup_insert_eq. }
  repeat split; reflexivity.
Qed.

(** *** Warm path *)

Lemma tally_of_nil (acc : Z * Z * string) : tally_of acc [] = acc.
Proof.
  destruct acc as [[a d] n]. unfold tally_of. simpl.
  by rewrite !Z.add_0_r.
Qed.

Lemma tally_of_app (acc : Z * Z * string) (l1 l2 : list commit_data) :
  tally_of (tally_of acc l1) l2 = tally_of acc (l1 ++ l2).
Proof.
  destruct acc as [[a d] n]. unfold tally_of, newest_of, Zsum. simpl.
  rewrite !fmap_app, !foldr_app, foldl_app.
  assert (H : ∀ (l : list Z) x, foldr Z.add x l = x + foldr Z.add 0 l).
  { induction l as [|y l IH]; intros x; simpl; [lia|]. rewrite IH. lia. }
  rewrite (H _ (foldr Z.add 0 (additions_of <$> l2))).
  rewrite (H _ (foldr Z.add 0 (deletions_of <$> l2))).
  f_equal. f_equal; lia.
Qed.

Lemma since_commits_run (since_dt : Z) (repo : string) (shas : list string)
    (acc : Z * Z * string) (w : world) :
  dates_parse R →
  for_acc shas (since_commit R since_dt repo) acc w
  = (Ret (tally_of acc (new_commits R since_dt (clock w) ((λ sha, (repo, sha)) <$> shas))),
     after_rest (commit_path <$> ((λ sha, (repo, sha)) <$> shas)) w).
Proof.
  intros Hparse. revert acc w. induction shas as [|sha shas IH]; intros acc w.
  - simpl. unfold ret. by rewrite tally_of_nil, after_rest_nil.
  - rewrite !fmap_cons. cbn [for_acc new_commits].
    unfold bind at 1, since_commit. unfold bind at 1.
    rewrite query_rest_run. unfold commit_path at 1 3. simpl fst. simpl snd.
    destruct (commit_at R (clock w) ("/repos/" +:+ repo +:+ "/commits/" +:+ sha))
      as [data|] eqn:Hdata.
    + destruct (Hparse _ _ _ Hdata) as [dt Hdt]. rewrite Hdt.
      unfold bind at 1, or_raise, ret at 1.
      rewrite Z.leb_antisym.
      destruct (since_dt <? dt) eqn:Hlt; cbn [negb].
      * destruct (cd_stats data) as [stats|] eqn:Hstats.
        -- destruct acc as [[a d] n]. unfold ret at 1. rewrite IH.
           simpl clock. rewrite after_rest_app, Nat.add_1_r.
           rewrite <- tally_of_app. f_equal. f_equal.
           unfold tally_of, additions_of, deletions_of, newest_of, Zsum, later.
           simpl. rewrite Hstats. simpl. rewrite !Z.add_0_r.
           by destruct stats as [[x|] [y|]].
        -- unfold ret at 1. rewrite IH. simpl clock.
           by rewrite after_rest_app, Nat.add_1_r.
      * unfold ret at 1. rewrite IH. simpl clock.
        rewrite after_rest_app, Nat.add_1_r.
        by destruct (cd_stats data).
    + unfold ret at 1. rewrite IH. simpl clock.
      by rewrite after_rest_app, Nat.add_1_r.
Qed.

Lemma new_commits_app (since_dt : Z) (t : nat) (l1 l2 : list (string * string)) :
  new_commits R since_dt t (l1 ++ l2)
  = new_commits R since_dt t l1 ++ new_commits R since_dt (t + length l1) l2.
Proof.
  revert t. induction l1 as [|c l1 IH]; intros t.
  - simpl. by rewrite Nat.add_0_r.
  - rewrite <- app_comm_cons. cbn [new_commits length]. rewrite IH.
    rewrite (assoc_L (++)).
    by replace (t + S (length l1))%nat with (S t + length l1)%nat by lia.
Qed.

Lemma since_events_run (since_dt : Z) (events : list event)
    (acc : Z * Z * string) (w : world) :
  dates_parse R →
  for_acc events (since_event R since_dt) acc w
  = (Ret (tally_of acc (new_commits R since_dt (clock w) (push_commits events))),
     after_rest (commit_path <$> push_commits events) w).
Proof.
  intros Hparse. revert acc w. induction events as [|event events IH];
    intros acc w.
  - simpl. unfold ret. by rewrite tally_of_nil, after_rest_nil.
  - cbn [for_acc]. unfold push_commits. rewrite bind_cons.
    fold (push_commits events).
    unfold bind at 1, since_event.
    destruct (bool_decide (ev_type event = Some "PushEvent")); cbn [negb].
    + rewrite since_commits_run by done. rewrite IH.
      rewrite tally_of_app, after_rest_app, fmap_app, new_commits_app.
      simpl clock. by rewrite !length_fmap.
    + unfold ret at 1. rewrite IH. done.
Qed.

Lemma lines_changed_since_run (since : string) (since_dt : Z) (w : world) :
  fromisoformat R since = Some since_dt → dates_parse R →
  lines_changed_since cfg R (JStr since) w
  = (Ret (tally_of (0, 0, since)
            (new_commits R since_dt (S (clock w))
               (push_commits (events_at R (clock w) (events_path cfg))))),
     after_rest (events_path cfg
                 :: (commit_path
                       <$> push_commits (events_at R (clock w) (events_path cfg))))
                w).
Proof.
  intros Hsince Hparse. unfold lines_changed_since.
  erewrite bind_ret by (rewrite Hsince; reflexivity).
  erewrite bind_ret by apply query_rest_run.
  rewrite since_events_run by done.
  rewrite after_rest_app. simpl clock. by rewrite Nat.add_1_r.
Qed.

(** C2, amended: on the warm path the commits of the push events that are
    authored after the watermark and carry statistics, and only they, are
    added up.  If both sums are zero, the totals are returned and the
    cache file is left as it is, watermark included.  Otherwise the sums
    are added to the cached totals and persisted with, as the watermark,
    the greatest in string order of the old watermark and the authored
    timestamps of those commits. *)
Theorem warm_run_delta (fuel : nat) (w : world) (c : gmap string json)
    (a d : Z) (since : string) (since_dt : Z) :
  cache_file w = Parsed (JObj c) →
  py_eq_int (dict_get c "version") Cache.CACHE_VERSION = true →
  c !! "lines_changed"
  = Some (Cache.lines_changed_entry (JInt a) (JInt d) (JStr since)) →
  fromisoformat R since = Some since_dt →
  dates_parse R →
  let cs := push_commits (events_at R (clock w) (events_path cfg)) in
  let news := new_commits R since_dt (S (clock w)) cs in
  let delta_add := Zsum (additions_of <$> news) in
  let delta_del := Zsum (deletions_of <$> news) in
  let newest := newest_of since (cd_author_date <$> news) in
  ∃ w',
    run (lines_changed cfg R fuel) w
    = (Ret (JInt (a + delta_add), JInt (d + delta_del)), w')
    ∧ rest_sent w' = rest_sent w ++ events_path cfg :: (commit_path <$> cs)
    ∧ if (delta_add =? 0) && (delta_del =? 0)
      then cache_file w' = cache_file w
      else ∃ m, persisted w' = Some m
                ∧ m !! "lines_changed"
                  = Some (Cache.lines_changed_entry (JInt (a + delta_add))
                            (JInt (d + delta_del)) (JStr newest))
                ∧ ∀ k v, k ≠ "lines_changed" → c !! k = Some v → m !! k = Some v.
Proof.
  intros Hfile Hver Hlc Hsince Hparse cs news delta_add delta_del newest.
  assert (Hget : Cache.get_lines_changed (Some c)
                 = Cache.lines_changed_entry (JInt a) (JInt d) (JStr since)).
  { unfold Cache.get_lines_changed. rewrite (truthy_obj c _ _ Hlc).
    unfold dict_get. by rewrite Hlc. }
  assert (Hrun : run (lines_changed cfg R fuel) w
    = (if (delta_add =? 0) && (delta_del =? 0)
       then (modify (set_lines_changed_attr (JInt a, JInt d)) ;;;
             ret (JInt a, JInt d))
       else (Cache.save_cache (isoformat R)
               (Cache.set_lines_changed (Some c) (JInt (a + delta_add))
                  (JInt (d + delta_del)) (JStr newest)) ;;;
             modify (set_lines_changed_attr
                       (JInt (a + delta_add), JInt (d + delta_del))) ;;;
             ret (JInt (a + delta_add), JInt (d + delta_del))))
        (after_rest (events_path cfg :: (commit_path <$> cs)) w)).
  { unfold run, lines_changed.
    erewrite bind_ret by (rewrite (load_cache_parsed c w Hfile), Hver; reflexivity).
    rewrite Hget.
    change (truthy (Cache.lines_changed_entry (JInt a) (JInt d) (JStr since)))
      with true. cbn [negb].
    erewrite bind_ret by reflexivity.
    erewrite bind_ret by reflexivity.
    erewrite bind_ret by reflexivity.
    erewrite bind_ret by (by apply lines_changed_since_run).
    fold cs. fold news. unfold tally_of. simpl fst. simpl snd.
    rewrite !Z.add_0_l. fold delta_add. fold delta_del. fold newest.
    by destruct ((delta_add =? 0) && (delta_del =? 0)). }
  rewrite Hrun.
  destruct ((delta_add =? 0) && (delta_del =? 0)) eqn:Hz.
  - apply andb_prop in Hz as [Ha%Z.eqb_eq Hd%Z.eqb_eq].
    rewrite Ha, Hd, !Z.add_0_r. eexists. split; [reflexivity|]. by simpl.
  - eexists. split; [reflexivity|]. simpl. split; [done|].
    eexists. split; [reflexivity|]. split.
    + apply lookup_union_Some_l. apply lookup_insert_eq.
    + intros k v Hk Hc. apply lookup_union_Some_l.
      unfold Cache.set_lines_changed. by rewrite lookup_insert_ne.
Qed.

End LinesChanged.

(** No cache file, one repository found by discovery, two authors. *)
Lemma cold_run_two_weeks_witness :
  ∃ w', run (lines_changed Demo.cfg
               (Demo.remote_of (λ _, Demo.one_repo) [] None Demo.contributors) 5)
            Demo.cold_world
        = (Ret (JInt 8, JInt 3), w')
        ∧ clock w' = 2%nat.
Proof.
  destruct (cold_run_two_weeks Demo.cfg
              (Demo.remote_of (λ _, Demo.one_repo) [] None Demo.contributors)
              5 Demo.cold_world
              (repos Demo.cfg
                 (Demo.remote_of (λ _, Demo.one_repo) [] None Demo.contributors)
                 5 Demo.cold_world).2
              None "alice/r"
              [AuthorObj (Some "bob") (Some [Week (Some 100) (Some 50)])] [])
    as (w' & m & lc & Hrun & Hclock & _).
  - reflexivity.
  - reflexivity.
  - vm_compute. reflexivity.
  - reflexivity.
  - repeat constructor. discriminate.
  - exists w'. split; [exact Hrun | exact Hclock].
Defined.

(** C2, as stated, fails: a commit authored after the watermark whose
    statistics are 0 additions and 0 deletions is something new, and the
    run leaves the watermark where it was. *)
Lemma warm_run_zero_stats_keeps_watermark :
  ¬ (∀ (cfg : config) (R : remote) (fuel : nat) (w : world)
       (c : gmap string json) (a d : Z) (since : string) (since_dt : Z),
       cache_file w = Parsed (JObj c) →
       py_eq_int (dict_get c "version") Cache.CACHE_VERSION = true →
       c !! "lines_changed"
       = Some (Cache.lines_changed_entry (JInt a) (JInt d) (JStr since)) →
       fromisoformat R since = Some since_dt →
       dates_parse R →
       let news := new_commits R since_dt (S (clock w))
                     (push_commits (events_at R (clock w) (events_path cfg))) in
       news ≠ [] →
       ∃ m lc, persisted (run (lines_changed cfg R fuel) w).2 = Some m
               ∧ m !! "lines_changed" = Some (JObj lc)
               ∧ lc !! "last_commit_date"
                 = Some (JStr (newest_of since (cd_author_date <$> news)))).
Proof.
  intros H.
  destruct (H Demo.cfg
              (Demo.remote_of (λ _, None) [Demo.push]
                 (Demo.detail (Some (Some 0, Some 0))) None)
              1%nat Demo.warm_world Demo.cached 10 4 "2024-05-01T10:00:00Z"
              20240501100000 eq_refl eq_refl eq_refl eq_refl)
    as (m & lc & Hm & Hlc & Hdate).
  - intros t path data _. by eexists.
  - discriminate.
  - vm_compute in Hm. injection Hm as <-.
    vm_compute in Hlc. injection Hlc as <-.
    vm_compute in Hdate. discriminate.
Qed.

(** A commit of 7 additions and 2 deletions after totals of 10 and 4. *)
Lemma warm_run_delta_witness :
  ∃ w', run (lines_changed Demo.cfg
               (Demo.remote_of (λ _, None) [Demo.push]
                  (Demo.detail (Some (Some 7, Some 2))) None) 1)
            Demo.warm_world
        = (Ret (JInt 17, JInt 6), w')
        ∧ rest_sent w'
          = ["/users/alice/events"; "/repos/o/r/commits/abc1234def5678"].
Proof.
  destruct (warm_run_delta Demo.cfg
              (Demo.remote_of (λ _, None) [Demo.push]
                 (Demo.detail (Some (Some 7, Some 2))) None)
              1%nat Demo.warm_world Demo.cached 10 4 "2024-05-01T10:00:00Z"
              20240501100000 eq_refl eq_refl eq_refl eq_refl)
    as (w' & Hrun & Hsent & _).
  - intros t path data _. by eexists.
  - exists w'. split; [exact Hrun | exact Hsent].
Defined.

